(** * kiss_ai_stack.core.tools.tool : the [Tool] dispatcher

    A shallow embedding of [src/kiss_ai_stack/core/tools/tool.py].

    The Python class [Tool] holds a tool kind, an AI client and an optional
    vector database, and offers [store_docs] and [process_query].  Both
    methods call injected collaborators, write to the logger and may raise.
    They are embedded in a state-and-exception monad: the state carries the
    attributes of [self], the collaborators' world, the records handed to
    [LOG] and the trace of collaborator calls; an exception leaves every
    effect performed before it in place, as in Python. *)

From Stdlib Require Import String Ascii List ZArith Lia Bool DecimalString.
From Corelib Require Import PrimFloat.
Import ListNotations.

Local Open Scope string_scope.
Local Open Scope list_scope.

Set Warnings "-register-all,-inexact-float".

(** ** Python values *)

(** Keys used in subscripts: [v['documents']] and [v[0]]. *)
Inductive pykey : Type :=
| KStr (s : string)
| KInt (i : Z).

Definition pykey_eqb (a b : pykey) : bool :=
  match a, b with
  | KStr s, KStr t => String.eqb s t
  | KInt i, KInt j => Z.eqb i j
  | _, _ => false
  end.

(** The values a collaborator can hand back: [None], numbers, strings, lists
    and insertion-ordered dicts.  The Tool only subscripts them and passes
    them on; they are taken as values, not as objects a collaborator goes on
    mutating after it has returned them. *)
Inductive pyval : Type :=
| PNone
| PInt (i : Z)
| PFloat (f : float)
| PStr (s : string)
| PList (l : list pyval)
| PDict (d : list (pykey * pyval)).

(** Exceptions: the class name, [str(e)], and whether the class derives from
    [Exception] (so that [except Exception] catches it) or only from
    [BaseException]. *)
Record pyexn : Type := mk_exn {
  exc_type : string;
  exc_str : string;
  exc_is_Exception : bool
}.

Definition KeyError (k : pykey) : pyexn :=
  mk_exn "KeyError"
         (match k with
          | KStr s => "'" ++ s ++ "'"
          | KInt i => NilZero.string_of_int (Z.to_int i)
          end)
         true.

Definition IndexError (msg : string) : pyexn := mk_exn "IndexError" msg true.
Definition TypeError (msg : string) : pyexn := mk_exn "TypeError" msg true.
Definition AttributeError (msg : string) : pyexn :=
  mk_exn "AttributeError" msg true.

Definition result (A : Type) : Type := (pyexn + A)%type.

Fixpoint dict_get (d : list (pykey * pyval)) (k : pykey) : option pyval :=
  match d with
  | [] => None
  | (k', v) :: d' => if pykey_eqb k' k then Some v else dict_get d' k
  end.

(** Python's sequence indexing: a negative index counts from the end. *)
Definition seq_index {A : Type} (l : list A) (i : Z) : option A :=
  let n := Z.of_nat (length l) in
  if (0 <=? i)%Z then nth_error l (Z.to_nat i)
  else if (- n <=? i)%Z then nth_error l (Z.to_nat (n + i))
  else None.

Fixpoint string_chars (s : string) : list string :=
  match s with
  | EmptyString => []
  | String c s' => String c EmptyString :: string_chars s'
  end.

(** [v[k]], that is [type(v).__getitem__(v, k)]. *)
Definition getitem (v : pyval) (k : pykey) : result pyval :=
  match v with
  | PDict d =>
      match dict_get d k with
      | Some x => inr x
      | None => inl (KeyError k)
      end
  | PList l =>
      match k with
      | KInt i =>
          match seq_index l i with
          | Some x => inr x
          | None => inl (IndexError "list index out of range")
          end
      | KStr _ =>
          inl (TypeError "list indices must be integers or slices, not str")
      end
  | PStr s =>
      match k with
      | KInt i =>
          match seq_index (string_chars s) i with
          | Some c => inr (PStr c)
          | None => inl (IndexError "string index out of range")
          end
      | KStr _ => inl (TypeError "string indices must be integers, not 'str'")
      end
  | PNone => inl (TypeError "'NoneType' object is not subscriptable")
  | PInt _ => inl (TypeError "'int' object is not subscriptable")
  | PFloat _ => inl (TypeError "'float' object is not subscriptable")
  end.

(** [f'{n}'] for a length. *)
Definition format_int (n : nat) : string :=
  NilZero.string_of_uint (Nat.to_uint n).

(** ** The data model *)

(** Modelled from the spec: [ToolKind] (models/enums/tool_kind.py is not among
    the sources) is the enumeration {RAG, PROMPT}. *)
Inductive ToolKind : Type := RAG | PROMPT.

Definition ToolKind_eqb (a b : ToolKind) : bool :=
  match a, b with
  | RAG, RAG | PROMPT, PROMPT => true
  | _, _ => false
  end.

(** Modelled from the spec: [ToolResponse] (models/core/rag_response.py is not
    among the sources) is a value object with a string [answer] and three
    optional fields; a field the constructor call leaves out stays empty. *)
Record ToolResponse : Type := mk_ToolResponse {
  answer : string;
  docs : option pyval;
  metadata : option pyval;
  distances : option pyval
}.

(** What reaches the logger: the method called on [LOG] and the message. *)
Inductive level : Type := DEBUG | INFO | ERROR.

Definition log_record : Type := (level * string)%type.

(** The collaborator calls a Tool makes, with the arguments it passes.  The
    context of [generate_answer] is [None] when the argument is left out. *)
Inductive call : Type :=
| Call_push (documents : list string) (metadata_list : list pyval)
| Call_retrieve (query : string)
| Call_generate_answer (query : string) (context : option pyval).

Section Model.

(** The collaborators' own state: whatever the AI client and the vector
    database remember between calls. *)
Variable W : Type.

(** [AIClientAbc.generate_answer(query, context)]. *)
Record AIClientAbc : Type := {
  generate_answer : string -> option pyval -> W -> result string * W
}.

(** [VectorDBAbc.push(documents, metadata_list)],
    [VectorDBAbc.retrieve(query)], and [bool(db)]: the truth value of the
    object, which is [True] unless its class defines [__bool__] or
    [__len__], and then depends on the object's state.  It is taken as an
    observation that neither raises nor changes that state. *)
Record VectorDBAbc : Type := {
  push : list string -> list pyval -> W -> result (list string) * W;
  retrieve : string -> W -> result pyval * W;
  truthy : W -> bool
}.

(** The three private attributes of a [Tool]. *)
Record Tool : Type := {
  tool_kind : ToolKind;
  ai_client : AIClientAbc;
  vector_db : option VectorDBAbc
}.

Record state : Type := {
  self : Tool;
  world : W;
  LOG : list log_record;
  calls : list call
}.

(** ** Effects *)

Definition M (A : Type) : Type := state -> result A * state.

Definition ret {A} (a : A) : M A := fun s => (inr a, s).

Definition bind {A B} (m : M A) (k : A -> M B) : M B :=
  fun s =>
    match m s with
    | (inr a, s') => k a s'
    | (inl e, s') => (inl e, s')
    end.

Definition raise {A} (e : pyexn) : M A := fun s => (inl e, s).

(** [try: body  except Exception as e: handler e]. *)
Definition try_except {A} (body : M A) (handler : pyexn -> M A) : M A :=
  fun s =>
    match body s with
    | (inr a, s') => (inr a, s')
    | (inl e, s') =>
        if exc_is_Exception e then handler e s' else (inl e, s')
    end.

Definition getattr {A} (f : Tool -> A) : M A := fun s => (inr (f (self s)), s).

Definition log (lv : level) (msg : string) : M unit :=
  fun s =>
    (inr tt,
     {| self := self s; world := world s;
        LOG := LOG s ++ [(lv, msg)]; calls := calls s |}).

(** Runs a collaborator method on the world and records the call. *)
Definition invoke {A} (c : call) (f : W -> result A * W) : M A :=
  fun s =>
    let (r, w) := f (world s) in
    (r, {| self := self s; world := w;
           LOG := LOG s; calls := calls s ++ [c] |}).

Definition lift {A} (r : result A) : M A := fun s => (r, s).

(** [bool(x)] for an attribute that holds [None] or a vector database. *)
Definition truth_value (x : option VectorDBAbc) : M bool :=
  fun s =>
    (inr match x with
         | Some db => truthy db (world s)
         | None => false
         end,
     s).

End Model.

Arguments generate_answer {W}.
Arguments push {W}.
Arguments retrieve {W}.
Arguments truthy {W}.
Arguments tool_kind {W}.
Arguments ai_client {W}.
Arguments vector_db {W}.
Arguments self {W}.
Arguments world {W}.
Arguments LOG {W}.
Arguments calls {W}.
Arguments ret {W A}.
Arguments bind {W A B}.
Arguments raise {W A}.
Arguments try_except {W A}.
Arguments getattr {W A}.
Arguments log {W}.
Arguments invoke {W A}.
Arguments lift {W A}.
Arguments truth_value {W}.

Declare Scope py_scope.
Delimit Scope py_scope with py.
Notation "x <- m ;; k" := (bind m (fun x => k))
  (at level 100, m at next level, right associativity) : py_scope.
Notation "m ;; k" := (bind m (fun _ => k))
  (at level 100, right associativity) : py_scope.

Local Open Scope py_scope.

(** ** The class [Tool] *)

Section ToolClass.

Variable W : Type.

(** [f'{self.__tool_kind}']: how the enumeration formats its members is fixed
    in models/enums/tool_kind.py, which is not among the sources. *)
Variable format_ToolKind : ToolKind -> string.

(** [self.__vector_db.push(documents=..., metadata_list=...)]; looking the
    method up on [None] raises. *)
Definition vector_db_push (documents : list string)
    (metadata_list : list pyval) : M W (list string) :=
  db <- getattr vector_db ;;
  match db with
  | Some db => invoke (Call_push documents metadata_list)
                      (push db documents metadata_list)
  | None => raise (AttributeError
                     "'NoneType' object has no attribute 'push'")
  end.

(** [self.__vector_db.retrieve(query)]. *)
Definition vector_db_retrieve (query : string) : M W pyval :=
  db <- getattr vector_db ;;
  match db with
  | Some db => invoke (Call_retrieve query) (retrieve db query)
  | None => raise (AttributeError
                     "'NoneType' object has no attribute 'retrieve'")
  end.

(** [self.__ai_client.generate_answer(query, context)]. *)
Definition ai_client_generate_answer (query : string)
    (context : option pyval) : M W string :=
  ai <- getattr ai_client ;;
  invoke (Call_generate_answer query context)
         (generate_answer ai query context).

(** [Tool.__init__]. *)
Definition Tool_init (tool_kind0 : ToolKind) (ai_client0 : AIClientAbc W)
    (vector_db0 : option (VectorDBAbc W)) : M W unit :=
  (fun s =>
     (inr tt,
      {| self := {| tool_kind := tool_kind0;
                    ai_client := ai_client0;
                    vector_db := vector_db0 |};
         world := world s; LOG := LOG s; calls := calls s |})) ;;
  kind <- getattr tool_kind ;;
  log INFO ("Tool :: Tool initialized with kind: " ++ format_ToolKind kind).

(** [Tool.store_docs].  [if self.__vector_db:] tests the truth value of the
    attribute: [None] is false, and so is a vector database whose
    [__bool__] or [__len__] says so.  Falling off the end of the method
    returns [None]. *)
Definition store_docs (documents : list string)
    (metadata_list : list pyval) : M W (option (list string)) :=
  db <- getattr vector_db ;;
  usable <- truth_value db ;;
  if usable then
    log INFO ("Tool :: Storing " ++ format_int (length documents)
              ++ " documents in the vector database.") ;;
    try_except
      (ids <- vector_db_push documents metadata_list ;;
       log INFO "Tool :: Documents successfully stored. IDs generated." ;;
       ret (Some ids))
      (fun e =>
         log ERROR ("Tool :: Failed to store documents: " ++ exc_str e) ;;
         raise e)
  else
    let error_message := "Tool :: Vector DB has not been initialized." in
    log ERROR error_message ;;
    ret None.

(** [Tool.process_query]. *)
Definition process_query (query : string) : M W (option ToolResponse) :=
  kind <- getattr tool_kind ;;
  log INFO ("Processing query with tool kind: " ++ format_ToolKind kind) ;;
  try_except
    (let tool_response : option ToolResponse := None in
     kind <- getattr tool_kind ;;
     tool_response <-
       (if ToolKind_eqb kind RAG then
          log INFO "Tool :: Performing retrieval-augmented generation (RAG) for query processing." ;;
          chunk_result <- vector_db_retrieve query ;;
          documents <- lift (getitem chunk_result (KStr "documents")) ;;
          chunks <- lift (getitem documents (KInt 0)) ;;
          log DEBUG "Tool :: Retrieved chunk metadata, not logging content." ;;
          answer <- ai_client_generate_answer query (Some chunks) ;;
          log INFO "Tool :: Answer generated by AI client, not logging content." ;;
          metadatas <- lift (getitem chunk_result (KStr "metadatas")) ;;
          distances <- lift (getitem chunk_result (KStr "distances")) ;;
          ret (Some (mk_ToolResponse answer (Some chunks)
                                     (Some metadatas) (Some distances)))
        else
          log INFO "Tool :: Using direct prompt mode for query processing." ;;
          answer <- ai_client_generate_answer query None ;;
          log INFO "Tool :: Answer generated by AI client, ****" ;;
          ret (Some (mk_ToolResponse answer None None None))) ;;
     ret tool_response)
    (fun e =>
       log ERROR "Tool :: Failed to process query" ;;
       raise e).

End ToolClass.

Arguments vector_db_push {W}.
Arguments vector_db_retrieve {W}.
Arguments ai_client_generate_answer {W}.
Arguments Tool_init {W}.
Arguments store_docs {W}.
Arguments process_query {W}.

(** ** Collaborators whose answers do not depend on their own state *)

Definition deterministic_ai {W} (ai : AIClientAbc W) : Prop :=
  forall q c w w', fst (generate_answer ai q c w) = fst (generate_answer ai q c w').

Definition deterministic_db {W} (db : VectorDBAbc W) : Prop :=
  forall q w w', fst (retrieve db q w) = fst (retrieve db q w').

(** ** What [process_query] can write to the log *)

(** The messages in the body of [process_query], for a Tool of kind [k]. *)
Definition process_query_messages (format_ToolKind : ToolKind -> string)
    (k : ToolKind) : list string :=
  [("Processing query with tool kind: " ++ format_ToolKind k)%string;
   "Tool :: Performing retrieval-augmented generation (RAG) for query processing.";
   "Tool :: Retrieved chunk metadata, not logging content.";
   "Tool :: Answer generated by AI client, not logging content.";
   "Tool :: Using direct prompt mode for query processing.";
   "Tool :: Answer generated by AI client, ****";
   "Tool :: Failed to process query"].

(** ** Failures of a collaborator during [process_query]

    [collaborator_failure fmt s q e]: running [process_query(q)] from [s], a
    collaborator call raises [e], or the retrieval result is malformed and
    subscripting it raises [e].  One constructor per place where the RAG and
    the PROMPT branch can fail. *)
Inductive collaborator_failure {W} (s : state W) (q : string) (e : pyexn)
  : Prop :=
| retrieve_raises db w1 :
    tool_kind (self s) = RAG ->
    vector_db (self s) = Some db ->
    retrieve db q (world s) = (inl e, w1) ->
    collaborator_failure s q e
| documents_malformed db r w1 :
    tool_kind (self s) = RAG ->
    vector_db (self s) = Some db ->
    retrieve db q (world s) = (inr r, w1) ->
    getitem r (KStr "documents") = inl e ->
    collaborator_failure s q e
| first_documents_malformed db r ds w1 :
    tool_kind (self s) = RAG ->
    vector_db (self s) = Some db ->
    retrieve db q (world s) = (inr r, w1) ->
    getitem r (KStr "documents") = inr ds ->
    getitem ds (KInt 0) = inl e ->
    collaborator_failure s q e
| generate_answer_raises_rag db r ds C w1 w2 :
    tool_kind (self s) = RAG ->
    vector_db (self s) = Some db ->
    retrieve db q (world s) = (inr r, w1) ->
    getitem r (KStr "documents") = inr ds ->
    getitem ds (KInt 0) = inr C ->
    generate_answer (ai_client (self s)) q (Some C) w1 = (inl e, w2) ->
    collaborator_failure s q e
| metadatas_malformed db r ds C a w1 w2 :
    tool_kind (self s) = RAG ->
    vector_db (self s) = Some db ->
    retrieve db q (world s) = (inr r, w1) ->
    getitem r (KStr "documents") = inr ds ->
    getitem ds (KInt 0) = inr C ->
    generate_answer (ai_client (self s)) q (Some C) w1 = (inr a, w2) ->
    getitem r (KStr "metadatas") = inl e ->
    collaborator_failure s q e
| distances_malformed db r ds C Mt a w1 w2 :
    tool_kind (self s) = RAG ->
    vector_db (self s) = Some db ->
    retrieve db q (world s) = (inr r, w1) ->
    getitem r (KStr "documents") = inr ds ->
    getitem ds (KInt 0) = inr C ->
    generate_answer (ai_client (self s)) q (Some C) w1 = (inr a, w2) ->
    getitem r (KStr "metadatas") = inr Mt ->
    getitem r (KStr "distances") = inl e ->
    collaborator_failure s q e
| generate_answer_raises_prompt w1 :
    tool_kind (self s) = PROMPT ->
    generate_answer (ai_client (self s)) q None (world s) = (inl e, w1) ->
    collaborator_failure s q e.

(** ** Test doubles

    Collaborators in the style of a unit test; their world counts the calls
    they have served. *)

Definition format_default (k : ToolKind) : string :=
  match k with
  | RAG => "ToolKind.RAG"
  | PROMPT => "ToolKind.PROMPT"
  end.

Definition m1 : pyval := PDict [(KStr "source", PStr "a.txt")].
Definition m2 : pyval := PDict [(KStr "source", PStr "b.txt")].

Definition chunk_result_ok : pyval :=
  PDict [(KStr "documents", PList [PList [PStr "chunk1"; PStr "chunk2"]]);
         (KStr "metadatas", PList [m1; m2]);
         (KStr "distances", PList [PFloat 0.1%float; PFloat 0.2%float])].

Definition fake_ai : AIClientAbc nat :=
  {| generate_answer := fun _ _ n => (inr "ans", S n) |}.

Definition fake_db : VectorDBAbc nat :=
  {| push := fun _ _ n => (inr ["id1"; "id2"], S n);
     retrieve := fun _ n => (inr chunk_result_ok, S n);
     truthy := fun _ => true |}.

Definition GenerationFailure : pyexn :=
  mk_exn "RuntimeError" "generation failed" true.

Definition failing_ai : AIClientAbc nat :=
  {| generate_answer := fun _ _ n => (inl GenerationFailure, S n) |}.

Definition RetrievalFailure : pyexn :=
  mk_exn "ConnectionError" "vector store unreachable" true.

(** A vector database that is down: [retrieve] raises, and [push] raises an
    error that names the document it could not store. *)
Definition failing_db : VectorDBAbc nat :=
  {| push := fun documents _ n =>
       (inl (mk_exn "ValueError"
                    ("cannot embed document: " ++ hd "" documents) true),
        S n);
     retrieve := fun _ n => (inl RetrievalFailure, S n);
     truthy := fun _ => true |}.

(** A vector database whose result lacks the ['documents'] key. *)
Definition malformed_db : VectorDBAbc nat :=
  {| push := fun _ _ n => (inr [], S n);
     retrieve := fun _ n => (inr (PDict [(KStr "ids", PList [])]), S n);
     truthy := fun _ => true |}.

Definition fresh (t : Tool nat) : state nat :=
  {| self := t; world := 0; LOG := []; calls := [] |}.

Definition rag_tool : Tool nat :=
  {| tool_kind := RAG; ai_client := fake_ai; vector_db := Some fake_db |}.

Definition prompt_tool : Tool nat :=
  {| tool_kind := PROMPT; ai_client := fake_ai; vector_db := None |}.

Definition rag_tool_no_db : Tool nat :=
  {| tool_kind := RAG; ai_client := fake_ai; vector_db := None |}.

Definition rag_tool_db_down : Tool nat :=
  {| tool_kind := RAG; ai_client := fake_ai; vector_db := Some failing_db |}.

(** ** Reading the log and more test doubles *)

Definition is_error (r : log_record) : bool :=
  match fst r with
  | ERROR => true
  | _ => false
  end.

(** What [store_docs] appends to the log, from the truth value of the
    vector database attribute, the number of documents and the outcome of
    [push]. *)
Definition store_docs_records {A} (usable : bool) (n : nat)
    (outcome : result A) : list log_record :=
  if usable then
    (INFO, ("Tool :: Storing " ++ format_int n
            ++ " documents in the vector database.")%string)
    :: match outcome with
       | inr _ =>
           [(INFO, "Tool :: Documents successfully stored. IDs generated.")]
       | inl e =>
           if exc_is_Exception e
           then [(ERROR,
                  ("Tool :: Failed to store documents: " ++ exc_str e)%string)]
           else []
       end
  else [(ERROR, "Tool :: Vector DB has not been initialized.")].

(** Ctrl-C while the AI client waits for the model: not an [Exception]. *)
Definition KeyboardInterrupt : pyexn := mk_exn "KeyboardInterrupt" "" false.

Definition interrupted_ai : AIClientAbc nat :=
  {| generate_answer := fun _ _ n => (inl KeyboardInterrupt, S n) |}.

(** A vector database whose [push] is interrupted. *)
Definition interrupted_db : VectorDBAbc nat :=
  {| push := fun _ _ n => (inl KeyboardInterrupt, S n);
     retrieve := fun _ n => (inl KeyboardInterrupt, S n);
     truthy := fun _ => true |}.

(** Retrieval results of the wrong shape: [None], no document lists, and
    documents without their metadata. *)
Definition db_returning (r : pyval) : VectorDBAbc nat :=
  {| push := fun _ _ n => (inr [], S n);
     retrieve := fun _ n => (inr r, S n);
     truthy := fun _ => true |}.

Definition chunk_result_no_lists : pyval :=
  PDict [(KStr "documents", PList []);
         (KStr "metadatas", PList []);
         (KStr "distances", PList [])].

Definition chunk_result_no_metadatas : pyval :=
  PDict [(KStr "documents", PList [PList [PStr "chunk1"]]);
         (KStr "distances", PList [PList [PFloat 0.5%float]])].

Definition rag_with (db : VectorDBAbc nat) : Tool nat :=
  {| tool_kind := RAG; ai_client := fake_ai; vector_db := Some db |}.

(** A vector database that reports its size: its class defines [__len__]
    as the number of documents stored, which here is the world.  While it
    is empty, [bool(db)] is [False]. *)
Definition sized_db : VectorDBAbc nat :=
  {| push := fun documents _ n =>
       (inr (map (fun d => "id-" ++ d)%string documents),
        n + length documents);
     retrieve := fun _ n => (inr chunk_result_ok, n);
     truthy := fun n => negb (Nat.eqb n 0) |}.

(** ** Properties of [store_docs] and [process_query] *)

Ltac unfold_tool :=
  unfold process_query, store_docs, Tool_init, vector_db_push,
    vector_db_retrieve, ai_client_generate_answer, try_except, bind, ret,
    raise, getattr, log, invoke, lift, truth_value.

Ltac run := unfold_tool; cbn.

(** Opens the state record, so that every attribute read computes. *)
Ltac open_state s :=
  let k := fresh "kind" in
  let ai := fresh "ai" in
  let vdb := fresh "vdb" in
  let w := fresh "w" in
  let lg := fresh "lg" in
  let cs := fresh "cs" in
  destruct s as [[k ai vdb] w lg cs]; cbn in *; subst.

(** Case analysis on whatever the run still branches on: the kind, the
    presence and truth value of a vector database, each collaborator's
    outcome, each
    subscript, and the class of a raised exception. *)
Ltac break :=
  repeat (cbn;
          match goal with
          | |- context [ToolKind_eqb ?k RAG] => is_var k; destruct k
          | |- context [match ?v with Some _ => _ | None => _ end] =>
              is_var v; destruct v
          | |- context [truthy ?db ?w] => destruct (truthy db w) eqn:?
          | |- context [retrieve ?db ?q ?w] =>
              destruct (retrieve db q w) as [[? | ?] ?] eqn:?
          | |- context [push ?db ?d ?m ?w] =>
              destruct (push db d m w) as [[? | ?] ?] eqn:?
          | |- context [generate_answer ?ai ?q ?c ?w] =>
              destruct (generate_answer ai q c w) as [[? | ?] ?] eqn:?
          | |- context [getitem ?v ?k] => destruct (getitem v k) eqn:?
          | |- context [exc_is_Exception ?e] =>
              destruct (exc_is_Exception e) eqn:?
          end);
  cbn.

Section Properties.

Variable W : Type.
Variable format_ToolKind : ToolKind -> string.

(** C1: with kind RAG and a vector database, when [retrieve(q)] yields a
    result whose ['documents'][0] is [C], whose ['metadatas'] is [Mt] and
    whose ['distances'] is [D], and [generate_answer(q, C)] returns [a],
    [process_query(q)] returns [ToolResponse(a, C, Mt, D)]; the context
    handed to the AI client is that same [C]. *)
Theorem process_query_rag_response
    (s : state W) (db : VectorDBAbc W) (q : string)
    (r ds C Mt D : pyval) (a : string) (w1 w2 : W) :
  tool_kind (self s) = RAG ->
  vector_db (self s) = Some db ->
  retrieve db q (world s) = (inr r, w1) ->
  getitem r (KStr "documents") = inr ds ->
  getitem ds (KInt 0) = inr C ->
  getitem r (KStr "metadatas") = inr Mt ->
  getitem r (KStr "distances") = inr D ->
  generate_answer (ai_client (self s)) q (Some C) w1 = (inr a, w2) ->
  fst (process_query format_ToolKind q s)
    = inr (Some (mk_ToolResponse a (Some C) (Some Mt) (Some D)))
  /\ calls (snd (process_query format_ToolKind q s))
     = calls s ++ [Call_retrieve q; Call_generate_answer q (Some C)].
Proof.
  intros Hk Hdb Hr Hds HC HM HD Ha.
  open_state s. run.
  rewrite Hr. cbn. rewrite Hds. cbn. rewrite HC. cbn. rewrite Ha. cbn.
  rewrite HM. cbn. rewrite HD. cbn.
  split; [reflexivity | now rewrite <- app_assoc].
Qed.

(** C2: with kind PROMPT, [process_query(q)] calls [generate_answer] with
    [q] and no context and nothing else, and when that returns [a] the
    response carries [a] and leaves docs, metadata and distances empty. *)
Theorem process_query_prompt_response
    (s : state W) (q : string) :
  tool_kind (self s) = PROMPT ->
  calls (snd (process_query format_ToolKind q s)) = calls s ++ [Call_generate_answer q None]
  /\ forall a w1,
       generate_answer (ai_client (self s)) q None (world s) = (inr a, w1) ->
       fst (process_query format_ToolKind q s)
         = inr (Some (mk_ToolResponse a None None None)).
Proof.
  intros Hk. open_state s. split.
  - run. destruct (generate_answer ai q None w) as [[e | a] w1]; cbn;
      [destruct (exc_is_Exception e) |]; reflexivity.
  - intros a w1 Ha. run. rewrite Ha. reflexivity.
Qed.

(** X10: with a vector database whose truth value is [True],
    [store_docs(documents, metadata_list)] makes one call, [push] with
    exactly these two arguments, and returns the identifiers [push]
    returned. *)
Theorem store_docs_forwards
    (s : state W) (db : VectorDBAbc W)
    (documents : list string) (metadata_list : list pyval)
    (ids : list string) (w1 : W) :
  vector_db (self s) = Some db ->
  truthy db (world s) = true ->
  push db documents metadata_list (world s) = (inr ids, w1) ->
  fst (store_docs documents metadata_list s) = inr (Some ids)
  /\ calls (snd (store_docs documents metadata_list s))
     = calls s ++ [Call_push documents metadata_list]
  /\ world (snd (store_docs documents metadata_list s)) = w1.
Proof.
  intros Hdb Ht Hp. open_state s. run. rewrite Ht. cbn.
  rewrite Hp. cbn. auto.
Qed.

(** C4: without a vector database, [store_docs] does not raise, calls no
    collaborator, and returns [None]: neither identifiers nor an error. *)
Theorem store_docs_without_db
    (s : state W) (documents : list string) (metadata_list : list pyval) :
  vector_db (self s) = None ->
  fst (store_docs documents metadata_list s) = inr None
  /\ calls (snd (store_docs documents metadata_list s)) = calls s
  /\ world (snd (store_docs documents metadata_list s)) = world s.
Proof.
  intros Hdb. open_state s. run. auto.
Qed.

(** A handler that logs and raises [e] again makes no difference to what
    the caller sees. *)
Lemma try_except_reraise {A} (body : M W A) (msg : pyexn -> string)
    (s : state W) (e : pyexn) :
  fst (body s) = inl e ->
  fst (try_except body (fun e => log ERROR (msg e) ;; raise e) s) = inl e.
Proof.
  unfold try_except, bind, log, raise.
  destruct (body s) as [[e' | a] s']; cbn; intros H; inversion H; subst.
  destruct (exc_is_Exception e); reflexivity.
Qed.

(** C5: when a collaborator call made during [process_query] raises [e],
    or the retrieval result is malformed and subscripting it raises [e],
    [process_query] raises that same [e] and returns no response; when
    [store_docs] calls [push] (the vector database is there and true) and
    [push] raises [e], [store_docs] raises that same [e]. *)
Theorem failures_propagate_unchanged :
  (forall (s : state W) (q : string) (e : pyexn),
      collaborator_failure s q e ->
      fst (process_query format_ToolKind q s) = inl e)
  /\ (forall (s : state W) (db : VectorDBAbc W) documents metadata_list
             (e : pyexn) (w1 : W),
         vector_db (self s) = Some db ->
         truthy db (world s) = true ->
         push db documents metadata_list (world s) = (inl e, w1) ->
         fst (store_docs documents metadata_list s) = inl e).
Proof.
  split.
  - intros s q e H. unfold process_query.
    unfold bind at 1. cbn. unfold bind at 1. cbn.
    apply try_except_reraise with (msg := fun _ => "Tool :: Failed to process query").
    destruct H; open_state s; run;
      repeat match goal with
             | H : _ = _ |- _ => rewrite H; clear H; cbn
             end; reflexivity.
  - intros s db documents metadata_list e w1 Hdb Ht Hp.
    open_state s. run. rewrite Ht. cbn. rewrite Hp. cbn.
    destruct (exc_is_Exception e); reflexivity.
Qed.

(** C6: with kind RAG and a vector database whose [retrieve] raises [e],
    [process_query] raises [e] and the only collaborator call made is that
    [retrieve]: [generate_answer] is not called. *)
Theorem retrieve_failure_skips_generation
    (s : state W) (db : VectorDBAbc W) (q : string) (e : pyexn) (w1 : W) :
  tool_kind (self s) = RAG ->
  vector_db (self s) = Some db ->
  retrieve db q (world s) = (inl e, w1) ->
  fst (process_query format_ToolKind q s) = inl e
  /\ calls (snd (process_query format_ToolKind q s))
     = calls s ++ [Call_retrieve q].
Proof.
  intros Hk Hdb Hr. open_state s. run. rewrite Hr. cbn.
  destruct (exc_is_Exception e); cbn; auto.
Qed.

(** C7: constructing a Tool with kind RAG and no vector database succeeds
    and stores the three attributes as given; every later [process_query]
    on such a Tool raises, at the attempt to call [retrieve] on [None],
    before any collaborator is called. *)
Theorem rag_without_db_fails_on_query
    (ai : AIClientAbc W) (s0 : state W) :
  fst (Tool_init format_ToolKind RAG ai None s0) = inr tt
  /\ self (snd (Tool_init format_ToolKind RAG ai None s0))
     = {| tool_kind := RAG; ai_client := ai; vector_db := None |}
  /\ forall (s : state W) (q : string),
       self s = self (snd (Tool_init format_ToolKind RAG ai None s0)) ->
       fst (process_query format_ToolKind q s)
         = inl (AttributeError
                  "'NoneType' object has no attribute 'retrieve'")
       /\ calls (snd (process_query format_ToolKind q s)) = calls s.
Proof.
  repeat split; try reflexivity;
    destruct s as [t w lg cs]; cbn in H; subst t; reflexivity.
Qed.

(** C10: when [process_query] returns normally, what it returns is a
    [ToolResponse], not [None]. *)
Theorem process_query_returns_response
    (s : state W) (q : string) (r : option ToolResponse) :
  fst (process_query format_ToolKind q s) = inr r ->
  exists resp, r = Some resp.
Proof.
  open_state s. run. break; intros H; inversion H; eauto.
Qed.

(** Neither method assigns to an attribute of [self]. *)
Lemma process_query_frame (s : state W) (q : string) :
  self (snd (process_query format_ToolKind q s)) = self s.
Proof. open_state s. run. break; reflexivity. Qed.

Lemma store_docs_frame (s : state W) documents metadata_list :
  self (snd (store_docs documents metadata_list s)) = self s.
Proof. open_state s. run. break; reflexivity. Qed.

(** With collaborators that answer the same in every world, two runs of
    [process_query(q)] on the same Tool agree on the outcome and on the
    collaborator calls made, whatever happened in between. *)
Lemma process_query_repeatable (s s' : state W) (q : string) :
  self s = self s' ->
  deterministic_ai (ai_client (self s)) ->
  (forall db, vector_db (self s) = Some db -> deterministic_db db) ->
  fst (process_query format_ToolKind q s)
    = fst (process_query format_ToolKind q s')
  /\ exists evs,
       calls (snd (process_query format_ToolKind q s)) = calls s ++ evs
       /\ calls (snd (process_query format_ToolKind q s')) = calls s' ++ evs
       /\ (tool_kind (self s) = PROMPT ->
           evs = [Call_generate_answer q None])
       /\ (forall db, tool_kind (self s) = RAG ->
                      vector_db (self s) = Some db ->
                      exists rest, evs = Call_retrieve q :: rest).
Proof.
  intros Hself Hai Hdb.
  destruct s as [[kind ai vdb] w lg cs], s' as [t' w' lg' cs'].
  cbn in *. subst t'.
  assert (Hfin : forall (x : list call) (a : call) (l : list call),
             (x ++ [a]) ++ l = x ++ a :: l)
    by (intros; now rewrite <- app_assoc).
  destruct kind.
  - destruct vdb as [db |].
    + pose proof (Hdb db eq_refl q w w') as X. run.
      destruct (retrieve db q w) as [[e | r] w1],
               (retrieve db q w') as [[e' | r'] w1'];
        cbn in X; inversion X; subst; clear X; cbn.
      * destruct (exc_is_Exception e'); cbn;
          (split; [reflexivity |]); eexists;
          (split; [reflexivity |]); (split; [reflexivity |]);
          (split; [discriminate | eauto]).
      * destruct (getitem r' (KStr "documents")) as [e | ds]; cbn.
        { destruct (exc_is_Exception e); cbn;
            (split; [reflexivity |]); eexists;
            (split; [reflexivity |]); (split; [reflexivity |]);
            (split; [discriminate | eauto]). }
        destruct (getitem ds (KInt 0)) as [e | C]; cbn.
        { destruct (exc_is_Exception e); cbn;
            (split; [reflexivity |]); eexists;
            (split; [reflexivity |]); (split; [reflexivity |]);
            (split; [discriminate | eauto]). }
        pose proof (Hai q (Some C) w1 w1') as X.
        destruct (generate_answer ai q (Some C) w1) as [[e | a] w2],
                 (generate_answer ai q (Some C) w1') as [[e' | a'] w2'];
          cbn in X; inversion X; subst; clear X; cbn;
          break; rewrite !Hfin;
          (split; [reflexivity |]); eexists;
          (split; [reflexivity |]); (split; [reflexivity |]);
          (split; [discriminate | eauto]).
    + run. split; [reflexivity |]. exists []. rewrite !app_nil_r.
      repeat split; discriminate.
  - pose proof (Hai q None w w') as X. run.
    destruct (generate_answer ai q None w) as [[e | a] w1],
             (generate_answer ai q None w') as [[e' | a'] w1'];
      cbn in X; inversion X; subst; clear X; cbn;
      break;
      (split; [reflexivity |]); eexists;
      (split; [reflexivity |]); (split; [reflexivity |]);
      (split; [reflexivity | discriminate]).
Qed.

(** C8: [process_query] and [store_docs] leave the three attributes of the
    Tool as they were; nothing is remembered between calls: with
    collaborators that answer the same in every world, a second
    [process_query(q)] right after the first returns the same outcome and
    makes the same collaborator calls again, a [generate_answer] in the
    PROMPT branch and a [retrieve] first in the RAG branch. *)
Theorem tool_is_stateless
    (s : state W) (q : string)
    (documents : list string) (metadata_list : list pyval) :
  self (snd (process_query format_ToolKind q s)) = self s
  /\ self (snd (store_docs documents metadata_list s)) = self s
  /\ (deterministic_ai (ai_client (self s)) ->
      (forall db, vector_db (self s) = Some db -> deterministic_db db) ->
      let s1 := snd (process_query format_ToolKind q s) in
      let s2 := snd (process_query format_ToolKind q s1) in
      fst (process_query format_ToolKind q s1)
        = fst (process_query format_ToolKind q s)
      /\ exists evs,
           calls s1 = calls s ++ evs
           /\ calls s2 = calls s1 ++ evs
           /\ (tool_kind (self s) = PROMPT ->
               evs = [Call_generate_answer q None])
           /\ (forall db, tool_kind (self s) = RAG ->
                          vector_db (self s) = Some db ->
                          exists rest, evs = Call_retrieve q :: rest)).
Proof.
  split; [apply process_query_frame |].
  split; [apply store_docs_frame |].
  intros Hai Hdb s1 s2.
  assert (Hself : self s = self s1)
    by (subst s1; now rewrite process_query_frame).
  destruct (process_query_repeatable s s1 q Hself Hai Hdb) as [Hres Hev].
  split; [now symmetry | exact Hev].
Qed.

(** X3: every record [process_query] adds to the log carries one of its fixed
    messages: the query, the chunks and the answer never reach the log. *)
Lemma process_query_log_is_content_free (s : state W) (q : string) :
  exists new,
    LOG (snd (process_query format_ToolKind q s)) = LOG s ++ new
    /\ Forall (fun rec =>
                 In (snd rec)
                    (process_query_messages format_ToolKind
                                            (tool_kind (self s))))
              new.
Proof.
  assert (H2 : forall (x : list log_record) a l,
             (x ++ [a]) ++ l = x ++ a :: l)
    by (intros; now rewrite <- app_assoc).
  open_state s.
  remember (process_query_messages format_ToolKind kind) as msgs eqn:Hm.
  run. break; rewrite ?H2;
    (eexists; split; [reflexivity |]);
    subst msgs; repeat (apply Forall_cons || apply Forall_nil);
    cbn; tauto.
Qed.

(** A successful [store_docs] logs the number of documents and nothing
    else that depends on its arguments. *)
Lemma store_docs_success_log (s : state W) documents metadata_list ids :
  fst (store_docs documents metadata_list s) = inr (Some ids) ->
  LOG (snd (store_docs documents metadata_list s))
    = LOG s ++ [(INFO, ("Tool :: Storing " ++ format_int (length documents)
                        ++ " documents in the vector database.")%string);
                (INFO, "Tool :: Documents successfully stored. IDs generated.")].
Proof.
  open_state s. run. break; intros H; inversion H.
  now rewrite <- app_assoc.
Qed.

End Properties.

(** ** The properties on the test doubles

    Each property above is run on a concrete Tool, with its hypotheses
    discharged by evaluation. *)

Lemma process_query_rag_response_witness :
  fst (process_query format_default "q" (fresh rag_tool))
    = inr (Some (mk_ToolResponse
                   "ans"
                   (Some (PList [PStr "chunk1"; PStr "chunk2"]))
                   (Some (PList [m1; m2]))
                   (Some (PList [PFloat 0.1%float; PFloat 0.2%float]))))
  /\ calls (snd (process_query format_default "q" (fresh rag_tool)))
     = [] ++ [Call_retrieve "q";
              Call_generate_answer
                "q" (Some (PList [PStr "chunk1"; PStr "chunk2"]))].
Proof.
  apply (process_query_rag_response
           nat format_default (fresh rag_tool) fake_db "q" chunk_result_ok
           (PList [PList [PStr "chunk1"; PStr "chunk2"]])
           (PList [PStr "chunk1"; PStr "chunk2"])
           (PList [m1; m2])
           (PList [PFloat 0.1%float; PFloat 0.2%float])
           "ans" 1 2); reflexivity.
Defined.

Lemma process_query_prompt_response_witness :
  calls (snd (process_query format_default "q" (fresh prompt_tool)))
    = [] ++ [Call_generate_answer "q" None]
  /\ fst (process_query format_default "q" (fresh prompt_tool))
     = inr (Some (mk_ToolResponse "ans" None None None)).
Proof.
  destruct (process_query_prompt_response
              nat format_default (fresh prompt_tool) "q" eq_refl)
    as [Hcalls Hres].
  split; [exact Hcalls | exact (Hres "ans" 1 eq_refl)].
Defined.

Lemma store_docs_forwards_witness :
  fst (store_docs ["d1"; "d2"] [m1; m2] (fresh rag_tool))
    = inr (Some ["id1"; "id2"])
  /\ calls (snd (store_docs ["d1"; "d2"] [m1; m2] (fresh rag_tool)))
     = [] ++ [Call_push ["d1"; "d2"] [m1; m2]]
  /\ world (snd (store_docs ["d1"; "d2"] [m1; m2] (fresh rag_tool))) = 1.
Proof.
  apply (store_docs_forwards nat (fresh rag_tool) fake_db
                             ["d1"; "d2"] [m1; m2] ["id1"; "id2"] 1);
    reflexivity.
Defined.

Lemma store_docs_without_db_witness :
  fst (store_docs ["d1"; "d2"] [m1; m2] (fresh prompt_tool)) = inr None
  /\ calls (snd (store_docs ["d1"; "d2"] [m1; m2] (fresh prompt_tool))) = []
  /\ world (snd (store_docs ["d1"; "d2"] [m1; m2] (fresh prompt_tool))) = 0.
Proof.
  apply (store_docs_without_db nat (fresh prompt_tool) ["d1"; "d2"] [m1; m2]).
  reflexivity.
Defined.

Lemma failures_propagate_unchanged_witness :
  fst (process_query format_default "q" (fresh rag_tool_db_down))
    = inl RetrievalFailure
  /\ fst (process_query format_default "q"
            (fresh {| tool_kind := RAG; ai_client := fake_ai;
                      vector_db := Some malformed_db |}))
     = inl (KeyError (KStr "documents"))
  /\ fst (process_query format_default "q"
            (fresh {| tool_kind := PROMPT; ai_client := failing_ai;
                      vector_db := None |}))
     = inl GenerationFailure
  /\ fst (store_docs ["alpha"] [m1] (fresh rag_tool_db_down))
     = inl (mk_exn "ValueError" "cannot embed document: alpha" true).
Proof.
  destruct (failures_propagate_unchanged nat format_default) as [Hq Hs].
  split; [| split; [| split]].
  - apply Hq. now apply (retrieve_raises _ _ _ failing_db 1).
  - apply Hq.
    now apply (documents_malformed _ _ _ malformed_db
                                   (PDict [(KStr "ids", PList [])]) 1).
  - apply Hq. now apply (generate_answer_raises_prompt _ _ _ 1).
  - now apply (Hs _ failing_db ["alpha"] [m1] _ 1).
Defined.

Lemma retrieve_failure_skips_generation_witness :
  fst (process_query format_default "q" (fresh rag_tool_db_down))
    = inl RetrievalFailure
  /\ calls (snd (process_query format_default "q" (fresh rag_tool_db_down)))
     = [] ++ [Call_retrieve "q"].
Proof.
  apply (retrieve_failure_skips_generation
           nat format_default (fresh rag_tool_db_down) failing_db "q"
           RetrievalFailure 1); reflexivity.
Defined.

Lemma rag_without_db_fails_on_query_witness :
  fst (process_query format_default "q" (fresh rag_tool_no_db))
    = inl (AttributeError "'NoneType' object has no attribute 'retrieve'")
  /\ calls (snd (process_query format_default "q" (fresh rag_tool_no_db)))
     = [].
Proof.
  apply (rag_without_db_fails_on_query
           nat format_default fake_ai (fresh prompt_tool)).
  reflexivity.
Defined.

Lemma tool_is_stateless_witness :
  fst (process_query format_default "q"
         (snd (process_query format_default "q" (fresh rag_tool))))
    = fst (process_query format_default "q" (fresh rag_tool))
  /\ exists evs,
       calls (snd (process_query format_default "q" (fresh rag_tool)))
         = [] ++ evs
       /\ calls (snd (process_query format_default "q"
                        (snd (process_query format_default "q"
                                (fresh rag_tool)))))
          = calls (snd (process_query format_default "q" (fresh rag_tool)))
              ++ evs
       /\ (RAG = PROMPT -> evs = [Call_generate_answer "q" None])
       /\ (forall db, RAG = RAG -> Some fake_db = Some db ->
                      exists rest, evs = Call_retrieve "q" :: rest).
Proof.
  apply (tool_is_stateless nat format_default (fresh rag_tool) "q"
                           ["d1"; "d2"] [m1; m2]).
  - intros q c w w'. reflexivity.
  - intros db Hdb q w w'. inversion Hdb. reflexivity.
Defined.

Lemma process_query_returns_response_witness :
  exists resp, Some (mk_ToolResponse "ans" None None None) = Some resp.
Proof.
  apply (process_query_returns_response
           nat format_default (fresh prompt_tool) "q").
  reflexivity.
Defined.

(** ** [store_docs] and a vector database that is false *)

(** C3: [store_docs] tests the truth value of the vector database, not its
    presence.  A Tool holds a vector database that is still empty and
    reports its size through [__len__]; [push] would accept the two
    documents, yet [store_docs] makes no call, logs that the vector
    database has not been initialized and returns [None], and the
    database stays empty.  [process_query] on the same Tool does use that
    database. *)
Theorem store_docs_skips_false_db :
  let s := fresh (rag_with sized_db) in
  let stored := store_docs ["d1"; "d2"] [m1; m2] s in
  vector_db (self s) = Some sized_db
  /\ push sized_db ["d1"; "d2"] [m1; m2] (world s)
     = (inr ["id-d1"; "id-d2"], 2)
  /\ fst stored = inr None
  /\ calls (snd stored) = []
  /\ world (snd stored) = 0
  /\ LOG (snd stored)
     = [(ERROR, "Tool :: Vector DB has not been initialized.")]
  /\ calls (snd (process_query format_default "q" s))
     = [Call_retrieve "q";
        Call_generate_answer
          "q" (Some (PList [PStr "chunk1"; PStr "chunk2"]))].
Proof.
  cbn. repeat split.
Qed.

(** ** The failure path of [store_docs] and the log *)

(** C9: [store_docs] puts [str(e)] of a failed [push] into the log.  Against
    a vector database whose error names the document it rejected, two calls
    with one document each, both failing, leave different logs, and the log
    holds the document's text. *)
Theorem store_docs_failure_logs_error_text :
  let s := fresh rag_tool_db_down in
  let run1 := store_docs ["alpha"] [m1] s in
  let run2 := store_docs ["omega"] [m1] s in
  length ["alpha"] = length ["omega"]
  /\ (exists e, fst run1 = inl e)
  /\ (exists e, fst run2 = inl e)
  /\ LOG (snd run1)
     = [(INFO, "Tool :: Storing 1 documents in the vector database.");
        (ERROR, "Tool :: Failed to store documents: cannot embed document: alpha")]
  /\ LOG (snd run2)
     = [(INFO, "Tool :: Storing 1 documents in the vector database.");
        (ERROR, "Tool :: Failed to store documents: cannot embed document: omega")]
  /\ LOG (snd run1) <> LOG (snd run2).
Proof.
  cbn. repeat split; eauto. discriminate.
Qed.

(** ** Further properties read off the two methods *)

Section MoreProperties.

Variable W : Type.
Variable format_ToolKind : ToolKind -> string.

(** X1: whatever [push] does, [store_docs] calls no collaborator but
    [push], once and with its own two arguments, and only when a vector
    database is there and its truth value is [True]; a database that is
    there but false gets no call. *)
Theorem store_docs_calls
    (s : state W) (documents : list string) (metadata_list : list pyval) :
  calls (snd (store_docs documents metadata_list s))
  = calls s ++ match vector_db (self s) with
               | Some db =>
                   if truthy db (world s)
                   then [Call_push documents metadata_list]
                   else []
               | None => []
               end.
Proof.
  open_state s. run. break; now rewrite ?app_nil_r.
Qed.

(** X2: [process_query] never calls [push]; it makes at most one [retrieve]
    and at most one [generate_answer], both for the query it was given, and
    a [generate_answer] with context only after a [retrieve]. *)
Theorem process_query_calls (s : state W) (q : string) :
  exists evs,
    calls (snd (process_query format_ToolKind q s)) = calls s ++ evs
    /\ (evs = []
        \/ evs = [Call_generate_answer q None]
        \/ evs = [Call_retrieve q]
        \/ exists C, evs = [Call_retrieve q; Call_generate_answer q (Some C)]).
Proof.
  assert (H2 : forall (x : list call) a l, (x ++ [a]) ++ l = x ++ a :: l)
    by (intros; now rewrite <- app_assoc).
  open_state s. run. break; rewrite ?H2;
    first [ eexists; split; [reflexivity |]
          | exists []; split; [now rewrite app_nil_r |] ];
    eauto 6.
Qed.

(** X4: the records [store_docs] appends to the log are fixed by the
    truth value of the vector database, the number of documents and the
    outcome of [push]: a count line, then a success line, or an error line
    with [str(e)] when [push] raised an [Exception], or nothing more when
    it raised outside [Exception]; without a vector database, or with one
    that is false, one error record. *)
Theorem store_docs_log
    (s : state W) (documents : list string) (metadata_list : list pyval) :
  LOG (snd (store_docs documents metadata_list s))
  = LOG s ++ match vector_db (self s) with
             | Some db =>
                 store_docs_records
                   (truthy db (world s)) (length documents)
                   (fst (push db documents metadata_list (world s)))
             | None =>
                 store_docs_records (A := list string) false
                                    (length documents) (inr [])
             end.
Proof.
  assert (H2 : forall (x : list log_record) a l,
             (x ++ [a]) ++ l = x ++ a :: l)
    by (intros; now rewrite <- app_assoc).
  open_state s. unfold store_docs_records. run.
  destruct vdb as [db |]; cbn; [| reflexivity].
  destruct (truthy db w); cbn; [| reflexivity].
  destruct (push db documents metadata_list w) as [[e | ids] w1]; cbn.
  - destruct (exc_is_Exception e); cbn; now rewrite ?H2.
  - now rewrite ?H2.
Qed.

(** X5: [process_query] appends an ERROR record exactly when it raises an
    [Exception]; a normal return and an error outside [Exception] leave
    none. *)
Theorem process_query_error_record (s : state W) (q : string) :
  exists new,
    LOG (snd (process_query format_ToolKind q s)) = LOG s ++ new
    /\ existsb is_error new
       = match fst (process_query format_ToolKind q s) with
         | inl e => exc_is_Exception e
         | inr _ => false
         end.
Proof.
  assert (H2 : forall (x : list log_record) a l,
             (x ++ [a]) ++ l = x ++ a :: l)
    by (intros; now rewrite <- app_assoc).
  open_state s. run. break; rewrite ?H2;
    (eexists; split; [reflexivity |]); cbn; congruence.
Qed.

(** X6: in the RAG branch the ['metadatas'] and ['distances'] keys are read
    only when the response is built, ['metadatas'] first: with a result
    that has its documents, [generate_answer] is called and, if it
    returns, a missing ['metadatas'] raises [KeyError('metadatas')] and,
    with ['metadatas'] there, a missing ['distances'] raises
    [KeyError('distances')]; the answer is dropped. *)
Theorem late_keys_fail_after_generation
    (s : state W) (db : VectorDBAbc W) (q : string)
    (d : list (pykey * pyval)) (ds C : pyval) (a : string) (w1 w2 : W) :
  tool_kind (self s) = RAG ->
  vector_db (self s) = Some db ->
  retrieve db q (world s) = (inr (PDict d), w1) ->
  dict_get d (KStr "documents") = Some ds ->
  getitem ds (KInt 0) = inr C ->
  generate_answer (ai_client (self s)) q (Some C) w1 = (inr a, w2) ->
  (dict_get d (KStr "metadatas") = None ->
   fst (process_query format_ToolKind q s)
     = inl (KeyError (KStr "metadatas")))
  /\ (dict_get d (KStr "metadatas") <> None ->
      dict_get d (KStr "distances") = None ->
      fst (process_query format_ToolKind q s)
        = inl (KeyError (KStr "distances")))
  /\ calls (snd (process_query format_ToolKind q s))
     = calls s ++ [Call_retrieve q; Call_generate_answer q (Some C)]
  /\ world (snd (process_query format_ToolKind q s)) = w2.
Proof.
  intros Hk Hdb Hr Hds HC Ha. open_state s. run.
  rewrite Hr. cbn. rewrite Hds. cbn. rewrite HC. cbn. rewrite Ha. cbn.
  destruct (dict_get d (KStr "metadatas")) as [Mt |] eqn:HM; cbn.
  - destruct (dict_get d (KStr "distances")) as [D |] eqn:HD; cbn;
      (split; [discriminate |]);
      (split; [(intros _ H; discriminate H) || reflexivity |]);
      (split; [now rewrite <- app_assoc | reflexivity]).
  - split; [reflexivity |].
    split; [intros H; now destruct H |].
    split; [now rewrite <- app_assoc | reflexivity].
Qed.

(** X7: when one of the two subscripts [chunk_result['documents'][0]]
    raises, [process_query] raises that error with [retrieve] as its only
    collaborator call: the AI client is not asked, and the collaborators'
    world is as [retrieve] left it. *)
Theorem early_subscript_failure_skips_generation
    (s : state W) (db : VectorDBAbc W) (q : string) (r : pyval)
    (e : pyexn) (w1 : W) :
  tool_kind (self s) = RAG ->
  vector_db (self s) = Some db ->
  retrieve db q (world s) = (inr r, w1) ->
  getitem r (KStr "documents") = inl e
  \/ (exists ds, getitem r (KStr "documents") = inr ds
                 /\ getitem ds (KInt 0) = inl e) ->
  fst (process_query format_ToolKind q s) = inl e
  /\ calls (snd (process_query format_ToolKind q s))
     = calls s ++ [Call_retrieve q]
  /\ world (snd (process_query format_ToolKind q s)) = w1.
Proof.
  intros Hk Hdb Hr Hsub. open_state s. run. rewrite Hr. cbn.
  destruct Hsub as [He | [ds [Hds He]]].
  - rewrite He. cbn. destruct (exc_is_Exception e); cbn; auto.
  - rewrite Hds. cbn. rewrite He. cbn.
    destruct (exc_is_Exception e); cbn; auto.
Qed.

(** X8: which error a retrieval result of the wrong shape gives: a result
    that is not a dict (for instance [None]) a [TypeError]; a dict without
    the key ['documents'] the [KeyError] of that key; an empty
    ['documents'] list the [IndexError] of [[][0]]. *)
Theorem malformed_result_errors
    (s : state W) (db : VectorDBAbc W) (q : string) (r : pyval) (w1 : W) :
  tool_kind (self s) = RAG ->
  vector_db (self s) = Some db ->
  retrieve db q (world s) = (inr r, w1) ->
  ((forall d, r <> PDict d) ->
   exists msg, fst (process_query format_ToolKind q s) = inl (TypeError msg))
  /\ (forall d, r = PDict d -> dict_get d (KStr "documents") = None ->
      fst (process_query format_ToolKind q s)
        = inl (KeyError (KStr "documents")))
  /\ (getitem r (KStr "documents") = inr (PList []) ->
      fst (process_query format_ToolKind q s)
        = inl (IndexError "list index out of range")).
Proof.
  intros Hk Hdb Hr. open_state s. run. rewrite Hr. cbn.
  split; [| split].
  - intros Hnd. destruct r; cbn; eauto. now destruct (Hnd d).
  - intros d -> Hd. cbn. rewrite Hd. reflexivity.
  - intros Hds. rewrite Hds. reflexivity.
Qed.

(** X9: a normal return of [process_query] tells how it came about.  For
    kind PROMPT the answer is what [generate_answer(q)] returned and the
    other fields are empty; for kind RAG a vector database was there,
    [retrieve(q)] returned a result with all three keys, docs is its
    ['documents'][0], metadata and distances are its ['metadatas'] and
    ['distances'], and the answer is what [generate_answer(q, docs)]
    returned. *)
Theorem process_query_success_inversion
    (s : state W) (q : string) (resp : ToolResponse) :
  fst (process_query format_ToolKind q s) = inr (Some resp) ->
  (tool_kind (self s) = PROMPT
   /\ exists w1,
        generate_answer (ai_client (self s)) q None (world s)
          = (inr (answer resp), w1)
        /\ docs resp = None /\ metadata resp = None
        /\ distances resp = None)
  \/ (tool_kind (self s) = RAG
      /\ exists db r ds C Mt D w1 w2,
           vector_db (self s) = Some db
           /\ retrieve db q (world s) = (inr r, w1)
           /\ getitem r (KStr "documents") = inr ds
           /\ getitem ds (KInt 0) = inr C
           /\ getitem r (KStr "metadatas") = inr Mt
           /\ getitem r (KStr "distances") = inr D
           /\ generate_answer (ai_client (self s)) q (Some C) w1
              = (inr (answer resp), w2)
           /\ docs resp = Some C /\ metadata resp = Some Mt
           /\ distances resp = Some D).
Proof.
  open_state s. run. break; intros H; inversion H; subst; cbn;
    first [ solve [left; split; [reflexivity | eauto 10]]
          | solve [right; split; [reflexivity | repeat eexists; eauto]] ].
Qed.

End MoreProperties.

(** ** The further properties on the test doubles *)

Lemma late_keys_fail_after_generation_witness :
  fst (process_query format_default "q"
         (fresh (rag_with (db_returning chunk_result_no_metadatas))))
    = inl (KeyError (KStr "metadatas"))
  /\ calls (snd (process_query format_default "q"
                   (fresh (rag_with (db_returning chunk_result_no_metadatas)))))
     = [] ++ [Call_retrieve "q";
              Call_generate_answer "q" (Some (PList [PStr "chunk1"]))]
  /\ world (snd (process_query format_default "q"
                   (fresh (rag_with (db_returning chunk_result_no_metadatas)))))
     = 2.
Proof.
  destruct (late_keys_fail_after_generation
              nat format_default
              (fresh (rag_with (db_returning chunk_result_no_metadatas)))
              (db_returning chunk_result_no_metadatas) "q"
              [(KStr "documents", PList [PList [PStr "chunk1"]]);
               (KStr "distances", PList [PList [PFloat 0.5%float]])]
              (PList [PList [PStr "chunk1"]]) (PList [PStr "chunk1"])
              "ans" 1 2 eq_refl eq_refl eq_refl eq_refl eq_refl eq_refl)
    as [Hmeta [_ [Hcalls Hworld]]].
  split; [exact (Hmeta eq_refl) | split; [exact Hcalls | exact Hworld]].
Defined.

Lemma early_subscript_failure_skips_generation_witness :
  fst (process_query format_default "q" (fresh (rag_with malformed_db)))
    = inl (KeyError (KStr "documents"))
  /\ calls (snd (process_query format_default "q"
                   (fresh (rag_with malformed_db))))
     = [] ++ [Call_retrieve "q"]
  /\ world (snd (process_query format_default "q"
                   (fresh (rag_with malformed_db)))) = 1.
Proof.
  apply (early_subscript_failure_skips_generation
           nat format_default (fresh (rag_with malformed_db)) malformed_db
           "q" (PDict [(KStr "ids", PList [])])
           (KeyError (KStr "documents")) 1); try reflexivity.
  left. reflexivity.
Defined.

Lemma malformed_result_errors_witness :
  (exists msg,
      fst (process_query format_default "q"
             (fresh (rag_with (db_returning PNone))))
      = inl (TypeError msg))
  /\ fst (process_query format_default "q" (fresh (rag_with malformed_db)))
     = inl (KeyError (KStr "documents"))
  /\ fst (process_query format_default "q"
            (fresh (rag_with (db_returning chunk_result_no_lists))))
     = inl (IndexError "list index out of range").
Proof.
  split; [| split].
  - apply (malformed_result_errors
             nat format_default (fresh (rag_with (db_returning PNone)))
             (db_returning PNone) "q" PNone 1 eq_refl eq_refl eq_refl).
    intros d Hd. discriminate Hd.
  - apply (malformed_result_errors
             nat format_default (fresh (rag_with malformed_db))
             malformed_db "q" (PDict [(KStr "ids", PList [])]) 1
             eq_refl eq_refl eq_refl)
      with (d := [(KStr "ids", PList [])]); reflexivity.
  - apply (malformed_result_errors
             nat format_default
             (fresh (rag_with (db_returning chunk_result_no_lists)))
             (db_returning chunk_result_no_lists) "q"
             chunk_result_no_lists 1 eq_refl eq_refl eq_refl).
    reflexivity.
Defined.

Lemma process_query_success_inversion_witness :
  (tool_kind rag_tool = PROMPT
   /\ exists w1,
        generate_answer fake_ai "q" None 0 = (inr "ans", w1)
        /\ Some (PList [PStr "chunk1"; PStr "chunk2"]) = None
        /\ Some (PList [m1; m2]) = None
        /\ Some (PList [PFloat 0.1%float; PFloat 0.2%float]) = None)
  \/ (tool_kind rag_tool = RAG
      /\ exists db r ds C Mt D w1 w2,
           Some fake_db = Some db
           /\ retrieve db "q" 0 = (inr r, w1)
           /\ getitem r (KStr "documents") = inr ds
           /\ getitem ds (KInt 0) = inr C
           /\ getitem r (KStr "metadatas") = inr Mt
           /\ getitem r (KStr "distances") = inr D
           /\ generate_answer fake_ai "q" (Some C) w1 = (inr "ans", w2)
           /\ Some (PList [PStr "chunk1"; PStr "chunk2"]) = Some C
           /\ Some (PList [m1; m2]) = Some Mt
           /\ Some (PList [PFloat 0.1%float; PFloat 0.2%float]) = Some D).
Proof.
  apply (process_query_success_inversion
           nat format_default (fresh rag_tool) "q"
           (mk_ToolResponse
              "ans"
              (Some (PList [PStr "chunk1"; PStr "chunk2"]))
              (Some (PList [m1; m2]))
              (Some (PList [PFloat 0.1%float; PFloat 0.2%float])))).
  reflexivity.
Defined.
